(** * squidnote_unpack: extracting notes from a SquidNote backup archive

    A shallow embedding of [squidnote_unpack.py].  The program opens a
    backup archive (a zip file holding the SQLite database [papyrus.db]
    and the binary assets the database refers to), selects notes by a
    regular expression and writes, for every selected note, a new
    [.squidnote] archive with a freshly built [note.db] and the assets
    of the note.

    The embedding keeps the program's own effects: the lines printed on
    standard output, the messages [mprint] sends to standard error, the
    archives written to disk member by member, and the Python exception
    that ends a run early. *)

From Stdlib Require Import ZArith Lia Ascii String.
From stdpp Require Import strings gmap list sorting pretty.

Local Open Scope string_scope.
Local Open Scope list_scope.
Local Open Scope Z_scope.

(** ** Text helpers: what Python's f-strings and [str] methods do here *)

Module Text.

(** The double quote and the newline, as one-character strings. *)
Definition dq : string := String (ascii_of_nat 34) EmptyString.
Definition nl : string := String (ascii_of_nat 10) EmptyString.

Fixpoint zeros (n : nat) : string :=
  match n with
  | O => EmptyString
  | S n' => String "0" (zeros n')
  end.

(** [str.zfill] on an unsigned numeral. *)
Definition zfill (w : nat) (s : string) : string :=
  zeros (w - String.length s) +:+ s.

(** The format [{n:04d}] on a natural number. *)
Definition d04 (n : nat) : string := zfill 4 (pretty n).

(** A decimal digit, and a two-digit field such as [%m] or [%S]. *)
Definition digit (d : Z) : ascii := ascii_of_nat (48 + Z.to_nat d).

Definition d02 (n : Z) : string :=
  String (digit ((n / 10) mod 10)) (String (digit (n mod 10)) EmptyString).

(** [print(a, b, ...)] joins its arguments with one space. *)
Fixpoint unwords (ws : list string) : string :=
  match ws with
  | [] => EmptyString
  | [w] => w
  | w :: ws' => w +:+ " " +:+ unwords ws'
  end.

Fixpoint unlines (ls : list string) : string :=
  match ls with
  | [] => EmptyString
  | l :: ls' => l +:+ nl +:+ unlines ls'
  end.

Definition quoted (s : string) : string := dq +:+ s +:+ dq.

End Text.

(** ** Regular expressions: [re.compile] and [re.match]

    A compiled pattern is represented by its abstract syntax, for the
    regular core of Python's pattern language.  [re_match] is Python's
    [re.match]: it succeeds when some prefix of the subject, possibly
    the empty one, is matched by the pattern; the subject need not be
    consumed to its end. *)

Module Re.

Inductive regex : Type :=
| Void                       (* matches nothing *)
| Eps                        (* the empty pattern *)
| Chr (c : ascii)            (* a literal character *)
| Dot                        (* [.]: any character but the newline *)
| Cat (r1 r2 : regex)
| Alt (r1 r2 : regex)
| Star (r : regex).

Fixpoint nullable (r : regex) : bool :=
  match r with
  | Void => false
  | Eps => true
  | Chr _ => false
  | Dot => false
  | Cat r1 r2 => nullable r1 && nullable r2
  | Alt r1 r2 => nullable r1 || nullable r2
  | Star _ => true
  end.

Definition is_newline (c : ascii) : bool := Ascii.eqb c (ascii_of_nat 10).

(** Brzozowski derivative: what is left of [r] after reading [c]. *)
Fixpoint deriv (c : ascii) (r : regex) : regex :=
  match r with
  | Void => Void
  | Eps => Void
  | Chr c' => if Ascii.eqb c c' then Eps else Void
  | Dot => if is_newline c then Void else Eps
  | Cat r1 r2 =>
      if nullable r1
      then Alt (Cat (deriv c r1) r2) (deriv c r2)
      else Cat (deriv c r1) r2
  | Alt r1 r2 => Alt (deriv c r1) (deriv c r2)
  | Star r' => Cat (deriv c r') (Star r')
  end.

Fixpoint re_match (r : regex) (s : string) {struct s} : bool :=
  nullable r ||
  match s with
  | EmptyString => false
  | String c s' => re_match (deriv c r) s'
  end.


(** [re.compile('.*')], the pattern used when [--regex] is absent. *)
Definition dot_star : regex := Star Dot.

End Re.

(** ** Local time: [datetime.datetime.fromtimestamp] and [strftime] *)

(** What the run takes from its environment: the offset of local time
    from UTC (in seconds, as a function of the instant, so that daylight
    saving is covered), the compatibility decomposition
    [unicodedata.normalize('NFKD', _)] used by [slugify], and the name
    of the temporary directory the database is unpacked into. *)
Record environment : Type := {
  utcoffset : Z -> Z;
  NFKD : string -> string;
  dirpath : string
}.

Module Clock.

Record datetime : Type := {
  year : Z; month : Z; day : Z; hour : Z; minute : Z; second : Z
}.

(** Days since 1970-01-01 to a date of the proleptic Gregorian
    calendar. *)
Definition civil_from_days (days : Z) : Z * Z * Z :=
  let z := days + 719468 in
  let era := z / 146097 in
  let doe := z mod 146097 in
  let yoe := (doe - doe / 1460 + doe / 36524 - doe / 146096) / 365 in
  let doy := doe - (365 * yoe + yoe / 4 - yoe / 100) in
  let mp := (5 * doy + 2) / 153 in
  let d := doy - (153 * mp + 2) / 5 + 1 in
  let m := if mp <? 10 then mp + 3 else mp - 9 in
  let y := yoe + era * 400 in
  (if m <=? 2 then y + 1 else y, m, d).

(** [datetime.datetime.fromtimestamp(ts/1000.0)] for an integer number
    [ts] of milliseconds: the fraction of a second goes to the
    microseconds, which neither format below prints.  The calendar is
    taken on all of [Z]; Python's [datetime] covers the years 1 to
    9999. *)
Definition fromtimestamp (env : environment) (ts : Z) : datetime :=
  let t := ts / 1000 in
  let loc := t + utcoffset env t in
  let '(y, m, d) := civil_from_days (loc / 86400) in
  let sod := loc mod 86400 in
  {| year := y; month := m; day := d;
     hour := sod / 3600; minute := (sod / 60) mod 60; second := sod mod 60 |}.

(** The time-of-day part of the two formats. *)
Definition HMS (dt : datetime) : string :=
  Text.d02 (hour dt) +:+ Text.d02 (minute dt) +:+ Text.d02 (second dt).

Definition H_M_S (dt : datetime) : string :=
  Text.d02 (hour dt) +:+ ":" +:+ Text.d02 (minute dt) +:+ ":" +:+ Text.d02 (second dt).

(** [strftime('%Y%m%d-%H%M%S')]; [%Y] is the plain numeral of the
    year, four digits from the year 1000 on. *)
Definition strftime_compact (dt : datetime) : string :=
  pretty (year dt) +:+ Text.d02 (month dt) +:+ Text.d02 (day dt) +:+ "-" +:+ HMS dt.

(** [strftime('%Y-%m-%d %H:%M:%S')]. *)
Definition strftime_iso (dt : datetime) : string :=
  pretty (year dt) +:+ "-" +:+ Text.d02 (month dt) +:+ "-" +:+ Text.d02 (day dt)
    +:+ " " +:+ H_M_S dt.

End Clock.

(** ** [slugify]: the file name of an extracted note *)

Definition is_ascii (c : ascii) : bool := (nat_of_ascii c <? 128)%nat.

(** [\w] on ASCII text: letters, digits and the underscore. *)
Definition is_word (c : ascii) : bool :=
  let n := nat_of_ascii c in
  ((48 <=? n) && (n <=? 57) || (65 <=? n) && (n <=? 90)
   || (97 <=? n) && (n <=? 122) || (n =? 95))%nat.

(** The class [[-_/]] stripped from both ends. *)
Definition is_edge (c : ascii) : bool :=
  Ascii.eqb c "-" || Ascii.eqb c "_" || Ascii.eqb c "/".

Fixpoint lstrip (cs : list ascii) : list ascii :=
  match cs with
  | c :: cs' => if is_edge c then lstrip cs' else cs
  | [] => []
  end.

Definition rstrip (cs : list ascii) : list ascii := rev (lstrip (rev cs)).

Definition slugify (env : environment) (value : string) : string :=
  (* normalize('NFKD', value).encode('ascii', 'ignore').decode('ascii') *)
  let value := List.filter is_ascii (list_ascii_of_string (NFKD env value)) in
  (* re.sub(r'[^-\w]', '_', value) *)
  let value :=
    map (fun c => if is_word c || Ascii.eqb c "-" then c else "_"%char) value in
  (* re.sub(r'^[-_/]+', '', value) *)
  let value := lstrip value in
  (* re.sub(r'[-_/]+$', '', value) *)
  let value := rstrip value in
  string_of_list_ascii value.

(** ** The data model *)

(** [papyrus.db], the database of the backup: the columns the program
    reads, a row being the tuple the query returns.  Tables are lists in
    the order in which a query without [ORDER BY] returns their rows. *)
Module Papyrus.
Record db : Type := {
  note : list (string * string * Z);            (* id, name, modified *)
  page : list (string * string * Z * Z * Z);    (* id, noteId, created, modified, pageNum *)
  image : list (string * string * Z);           (* imageId, pageId, toDelete *)
  document : list (string * string)             (* documentId, noteId *)
}.
End Papyrus.

(** [note.db], the database built for one extracted note: the seven
    tables of [sql_cmds], a row holding the columns that the [INSERT]
    statements set. *)
Module NoteDb.
Record db : Type := {
  android_metadata : list string;                        (* locale *)
  document : list (string * string);                     (* documentId, noteId *)
  folder : list (string * string * Z);                   (* id, name, created *)
  image : list (string * string * Z);                    (* imageId, pageId, toDelete *)
  manifest : list Z;                                     (* revision *)
  note : list (string * string * Z * Z);                 (* id, name, created, modified *)
  page : list (string * string * Z * Z * Z * string)     (* ..., documentId *)
}.
End NoteDb.

(** The backup archive opened as [sn_bup]: the database member
    [papyrus.db], when there is one, and the other members by name. *)
Record backup : Type := {
  papyrus_db : option Papyrus.db;
  members : gmap string string
}.

(** A member of a written archive holds bytes or the database file. *)
Inductive content : Type :=
| Data (bytes : string)
| Sqlite (db : NoteDb.db).

(** An archive opened for writing: its members in the order written.
    [zipfile] does not refuse a second member of the same name. *)
Definition archive : Type := list (string * content).

Inductive colour : Type := CWHITE | CRED | CGREEN | CYELLOW.

(** What a run leaves behind: the lines of standard output, the
    messages of [mprint] on standard error (without the clock prefix),
    and the archives on disk by file name. *)
Record world : Type := {
  stdout : list string;
  stderr : list (colour * string);
  disk : gmap string archive
}.

Inductive exn : Type :=
| KeyError (name : string)     (* no such member in the backup archive *)
| IntegrityError               (* a PRIMARY KEY of note.db violated *)
| SystemExit.                  (* exit() *)

(** ** Effects: state passing with exceptions *)

Inductive result (A : Type) : Type :=
| Ok (a : A)
| Raise (e : exn).
Arguments Ok {A} a.
Arguments Raise {A} e.

Definition M (A : Type) : Type := world -> world * result A.

Definition ret {A} (a : A) : M A := fun w => (w, Ok a).

Definition raise {A} (e : exn) : M A := fun w => (w, Raise e).

Definition bind {A B} (m : M A) (k : A -> M B) : M B :=
  fun w =>
    match m w with
    | (w', Ok a) => k a w'
    | (w', Raise e) => (w', Raise e)
    end.

Notation "x <~ m ;; k" := (bind m (fun x => k))
  (at level 100, m at next level, right associativity).
Notation "m ;;; k" := (bind m (fun _ => k))
  (at level 100, right associativity).

(** A [for] loop: the body is run on each element in turn; an exception
    ends the loop. *)
Fixpoint for_each {A} (xs : list A) (body : A -> M unit) : M unit :=
  match xs with
  | [] => ret tt
  | x :: xs' => body x ;;; for_each xs' body
  end.

(** [enumerate]. *)
Fixpoint enumerate_from {A} (i : nat) (xs : list A) : list (nat * A) :=
  match xs with
  | [] => []
  | x :: xs' => (i, x) :: enumerate_from (S i) xs'
  end.

Definition enumerate {A} (xs : list A) : list (nat * A) := enumerate_from 0 xs.

Definition print (line : string) : M unit :=
  fun w => ({| stdout := stdout w ++ [line]; stderr := stderr w; disk := disk w |}, Ok tt).

(** [mprint]: a message on standard error, unless [quiet] is set. *)
Definition mprint (quiet : bool) (c : colour) (msg : string) : M unit :=
  fun w =>
    if quiet then (w, Ok tt)
    else ({| stdout := stdout w; stderr := stderr w ++ [(c, msg)]; disk := disk w |}, Ok tt).

(** [zipfile.ZipFile(sn_file, 'w')]: the file is created, or truncated,
    when it is opened. *)
Definition zip_open_w (sn_file : string) : M unit :=
  fun w => ({| stdout := stdout w; stderr := stderr w;
               disk := <[sn_file := []]> (disk w) |}, Ok tt).

Definition zip_append (sn_file : string) (m : string * content) (w : world) : world :=
  {| stdout := stdout w; stderr := stderr w;
     disk := <[sn_file := default [] (disk w !! sn_file) ++ [m]]> (disk w) |}.

(** [with sn.open(name, 'w') as o_file: o_file.write(c)]. *)
Definition zip_write (sn_file name : string) (c : content) : M unit :=
  fun w => (zip_append sn_file (name, c) w, Ok tt).

(** [with sn.open(name, 'w') as o_file:
       with sn_bup.open(name, 'r') as i_file: shutil.copyfileobj(i_file, o_file)]
    The member is opened in the new archive first.  When the backup has
    no member of that name, [sn_bup.open] raises [KeyError]; leaving the
    outer [with] closes the member just opened, which stays in the new
    archive, empty. *)
Definition zip_copy (sn_bup : backup) (sn_file name : string) : M unit :=
  fun w =>
    match members sn_bup !! name with
    | Some bytes => (zip_append sn_file (name, Data bytes) w, Ok tt)
    | None => (zip_append sn_file (name, Data EmptyString) w, Raise (KeyError name))
    end.

(** [list(set(xs))]: the distinct elements, in an order of the set's
    own. *)
Definition list_set (xs : list string) : list string :=
  elements (list_to_set xs : gset string).

(** ** The program *)

Record arguments : Type := {
  args_filename : string;               (* -f / --filename *)
  args_regex : option Re.regex;         (* -r / --regex, compiled *)
  args_list : bool;                     (* -l / --list *)
  args_extract : bool;                  (* -x / --extract *)
  args_all : bool;                      (* -a / --all *)
  args_dry_run : bool;                  (* -n / --dry-run *)
  args_version : bool;                  (* -v / --version *)
  args_quiet : bool                     (* -q / --quiet *)
}.

Definition __doc__ : string :=
  Text.unlines [
    EmptyString;
    "Program to extract individual notes from a SquidNote backup archive";
    EmptyString;
    "   Run " +:+ Text.quoted "squidnote_unpack -h" +:+ " for usage information";
    EmptyString;
    "N.B. The extracted files are only meant to be used as input to squidnote2xopp";
    "and are not intended to be loaded by SquidNote, and so they have not been tested";
    "for that use case.";
    EmptyString;
    "Version 1.0.0 (2023-05-26)";
    "Copyright (c) 2023, ZJ Laczik";
    EmptyString;
    "Please submit suggestions, feature requests and bug reports on https://github.com/laczik/"
  ].

(** *** Selecting the notes *)

(** [ORDER BY modified ASC]. *)
Definition by_modified : relation (string * string * Z) :=
  fun r1 r2 => r1.2 <= r2.2.

#[global] Instance by_modified_dec : RelDecision by_modified.
Proof. intros r1 r2. unfold by_modified. apply _. Defined.

(** [SELECT id, name, modified FROM note ORDER BY modified ASC]. *)
Definition query_results (db : Papyrus.db) : list (string * string * Z) :=
  merge_sort by_modified (Papyrus.note db).

(** The entry of [note_list] for a row: the empty name replaced, the
    time formatted. *)
Definition fix_name (env : environment) (nn : string) (ts : Z) : string :=
  if String.eqb nn EmptyString
  then "Untitled_" +:+ Clock.strftime_compact (Clock.fromtimestamp env ts)
  else nn.

Definition mtime_of (env : environment) (ts : Z) : string :=
  Clock.strftime_iso (Clock.fromtimestamp env ts).

(** The loop over [query_results] that fixes names and times and keeps
    the notes that the pattern selects. *)
Fixpoint note_list (env : environment) (regex : Re.regex)
    (rows : list (string * string * Z)) : list (string * string * string * Z) :=
  match rows with
  | [] => []
  | (uuid, nn, ts) :: rows' =>
      let nn := fix_name env nn ts in
      let mtime := mtime_of env ts in
      let selected :=
        Re.re_match regex uuid || Re.re_match regex nn || Re.re_match regex mtime in
      if selected
      then (uuid, nn, mtime, ts) :: note_list env regex rows'
      else note_list env regex rows'
  end.

(** The line that [--list] prints for the [i]-th selected note. *)
Definition listing_line (n_notes i : nat) (r : string * string * string * Z) : string :=
  let '(uuid, nn, mtime, ts) := r in
  Text.unwords [Text.d04 (i + 1) +:+ "/" +:+ Text.d04 n_notes; uuid;
                Text.quoted mtime; Text.quoted nn].

(** *** Resolving what a note owns

    The three queries below put the identifier into the statement text
    between double quotes; they are read as the comparison with that
    string, which is what SQLite does for an identifier that holds no
    double quote and is not the name of a column. *)

(** [SELECT documentId, noteId FROM document WHERE noteId IS "{uuid}"]. *)
Definition pdf_sql_vals (db : Papyrus.db) (uuid : string) : list (string * string) :=
  filter (fun r => r.2 = uuid) (Papyrus.document db).

(** [documentId = ''], then rebound by every turn of
    [for documentId, noteId in pdf_sql_vals]. *)
Definition documentId (db : Papyrus.db) (uuid : string) : string :=
  fold_left (fun _ r => r.1) (pdf_sql_vals db uuid) EmptyString.

Definition pdfs (db : Papyrus.db) (uuid : string) : list string :=
  map fst (pdf_sql_vals db uuid).

(** [SELECT id, noteId, created, modified, pageNum FROM page WHERE noteId IS "{uuid}"]. *)
Definition page_sql_vals (db : Papyrus.db) (uuid : string)
    : list (string * string * Z * Z * Z) :=
  filter (fun r => r.1.1.1.2 = uuid) (Papyrus.page db).

Definition page_id (r : string * string * Z * Z * Z) : string := r.1.1.1.1.

(** Each row of [page_sql_vals] with [documentId] added as its last
    column. *)
Definition page_sql_vals_ext (db : Papyrus.db) (uuid : string)
    : list (string * string * Z * Z * Z * string) :=
  map (fun page_sql_val => (page_sql_val, documentId db uuid)) (page_sql_vals db uuid).

(** [SELECT imageId, pageId, toDelete FROM image WHERE pageId IS "{page_uuid}"]. *)
Definition img_sql_vals (db : Papyrus.db) (page_uuid : string)
    : list (string * string * Z) :=
  filter (fun r => r.1.2 = page_uuid) (Papyrus.image db).

(** The rows inserted into [image] by the loop over the pages. *)
Definition image_rows (db : Papyrus.db) (uuid : string) : list (string * string * Z) :=
  flat_map (fun p => img_sql_vals db (page_id p)) (page_sql_vals db uuid).

Definition images (db : Papyrus.db) (uuid : string) : list string :=
  map (fun r => r.1.1) (image_rows db uuid).

(** *** Building [note.db]

    The tables are created, then filled in the order of the program:
    the locale, the note, its documents, its pages, the images of each
    page.  [page.id] is a primary key of the new table: inserting two
    pages of one identifier raises. *)
Definition note_db_of (db : Papyrus.db) (uuid nn : string) (ts : Z) : NoteDb.db :=
  {| NoteDb.android_metadata := ["en_GB"];
     NoteDb.document := pdf_sql_vals db uuid;
     NoteDb.folder := [];
     NoteDb.image := image_rows db uuid;
     NoteDb.manifest := [];
     NoteDb.note := [(uuid, nn, ts, ts)];
     NoteDb.page := page_sql_vals_ext db uuid |}.

Definition new_db (db : Papyrus.db) (uuid nn : string) (ts : Z) : M NoteDb.db :=
  if bool_decide (NoDup (map page_id (page_sql_vals db uuid)))
  then ret (note_db_of db uuid nn ts)
  else raise IntegrityError.

(** *** Writing the archive of one note *)

Definition info_json (uuid nn : string) (ts : Z) : string :=
  "{" +:+ Text.quoted "id" +:+ ":" +:+ Text.quoted uuid +:+ ","
      +:+ Text.quoted "name" +:+ ":" +:+ Text.quoted nn +:+ ","
      +:+ Text.quoted "modified" +:+ ":" +:+ pretty ts +:+ ","
      +:+ Text.quoted "version" +:+ ":1}".

Definition db_path (env : environment) : string := dirpath env +:+ "/papyrus.db".

Definition sn_file_of (env : environment) (nn : string) : string :=
  slugify env nn +:+ ".squidnote".

Definition page_set (db : Papyrus.db) (uuid : string) : list string :=
  list_set (map page_id (page_sql_vals db uuid)).

Definition image_set (db : Papyrus.db) (uuid : string) : list string :=
  list_set (images db uuid).

Definition pdf_set (db : Papyrus.db) (uuid : string) : list string :=
  list_set (pdfs db uuid).

Definition written (l : nat) (dir : string) : string :=
  "Written " +:+ pretty l +:+ " file(s) to " +:+ Text.quoted dir.

(** The body of the loop of [--extract], for the [i]-th selected note. *)
Definition extract_note (env : environment) (quiet : bool) (sn_bup : backup)
    (db : Papyrus.db) (n_notes i : nat) (r : string * string * string * Z) : M unit :=
  let '(uuid, nn, mtime, ts) := r in
  let sn_file := sn_file_of env nn in
  zip_open_w sn_file ;;;
  mprint quiet CWHITE "Opened new squidnote archive for writing" ;;;
  zip_write sn_file "info.json" (Data (info_json uuid nn ts)) ;;;
  mprint quiet CWHITE ("Connected to input sqlite3 database " +:+ db_path env) ;;;
  note_db <~ new_db db uuid nn ts ;;
  zip_write sn_file "note.db" (Sqlite note_db) ;;;
  zip_write sn_file "data/pages/.metadata" (Data EmptyString) ;;;
  for_each (page_set db uuid)
    (fun page => zip_copy sn_bup sn_file ("data/pages/" +:+ page +:+ ".page")) ;;;
  mprint quiet CWHITE (written (length (page_set db uuid)) "data/pages") ;;;
  zip_write sn_file "data/imgs/.metadata" (Data EmptyString) ;;;
  for_each (image_set db uuid)
    (fun image => zip_copy sn_bup sn_file ("data/imgs/" +:+ image)) ;;;
  mprint quiet CWHITE (written (length (image_set db uuid)) "data/imgs") ;;;
  zip_write sn_file "data/docs/.metadata" (Data EmptyString) ;;;
  for_each (pdf_set db uuid)
    (fun pdf => zip_copy sn_bup sn_file ("data/docs/" +:+ pdf)) ;;;
  mprint quiet CWHITE (written (length (pdf_set db uuid)) "data/docs") ;;;
  mprint quiet CGREEN
    (Text.unwords [Text.d04 (i + 1) +:+ "/" +:+ Text.d04 n_notes;
                   "Extracted squidnote " +:+ Text.quoted sn_file]).

(** [re.compile('.*')] when no pattern is given, the compiled pattern
    otherwise. *)
Definition regex_of (r : option Re.regex) : Re.regex :=
  match r with
  | None => Re.dot_star
  | Some r' => r'
  end.

(** *** [main]

    [sn_bup] is the archive that [args.filename] names, opened for
    reading. *)
Definition main (env : environment) (args : arguments) (sn_bup : backup) : M unit :=
  if args_version args then print __doc__ ;;; raise SystemExit
  else
    let quiet := args_quiet args in
    let regex := regex_of (args_regex args) in
    (if args_dry_run args
     then mprint quiet CYELLOW "This is a dry run, no files will be written"
     else ret tt) ;;;
    mprint quiet CGREEN ("Input file:  " +:+ Text.quoted (args_filename args)) ;;;
    mprint quiet CWHITE
      ("Opened squidnote backup archive " +:+ Text.quoted (args_filename args)) ;;;
    db <~ match papyrus_db sn_bup with
          | Some db => ret db
          | None => raise (KeyError "papyrus.db")
          end ;;
    mprint quiet CGREEN ("Connected to input sqlite3 database " +:+ db_path env) ;;;
    let notes := note_list env regex (query_results db) in
    let n_notes := length notes in
    mprint quiet CWHITE "Closed input database connection" ;;;
    (if args_list args then
       for_each (enumerate notes)
         (fun '(i, r) => print (listing_line n_notes i r))
     else if args_extract args then
       for_each (enumerate notes)
         (fun '(i, r) => extract_note env quiet sn_bup db n_notes i r)
     else ret tt) ;;;
    mprint quiet CGREEN "Finished".

(** The state in which a run starts. *)
Definition fresh (d : gmap string archive) : world :=
  {| stdout := []; stderr := []; disk := d |}.

(** ** The archive of a note, as a value

    What [extract_note] leaves in the file it writes, and how it ends,
    described without the state: the members written so far and the
    outcome.  [extract_note_writes] below proves that this is what the
    program does. *)

(** The members written by a copying loop over [names]. *)
Fixpoint copied (sn_bup : backup) (names : list string) : archive * result unit :=
  match names with
  | [] => ([], Ok tt)
  | name :: names' =>
      match members sn_bup !! name with
      | Some bytes =>
          let '(z, r) := copied sn_bup names' in ((name, Data bytes) :: z, r)
      | None => ([(name, Data EmptyString)], Raise (KeyError name))
      end
  end.

(** One stretch of writing followed by another, unless the first
    raised. *)
Definition and_then (a b : archive * result unit) : archive * result unit :=
  match a.2 with
  | Ok _ => (a.1 ++ b.1, b.2)
  | Raise e => (a.1, Raise e)
  end.

Definition wrote (name : string) (c : content) : archive * result unit :=
  ([(name, c)], Ok tt).

Definition page_names (db : Papyrus.db) (uuid : string) : list string :=
  map (fun page => "data/pages/" +:+ page +:+ ".page") (page_set db uuid).

Definition image_names (db : Papyrus.db) (uuid : string) : list string :=
  map (fun image => "data/imgs/" +:+ image) (image_set db uuid).

Definition pdf_names (db : Papyrus.db) (uuid : string) : list string :=
  map (fun pdf => "data/docs/" +:+ pdf) (pdf_set db uuid).

Definition asset_members (sn_bup : backup) (db : Papyrus.db) (uuid : string)
    : archive * result unit :=
  and_then (wrote "data/pages/.metadata" (Data EmptyString))
    (and_then (copied sn_bup (page_names db uuid))
      (and_then (wrote "data/imgs/.metadata" (Data EmptyString))
        (and_then (copied sn_bup (image_names db uuid))
          (and_then (wrote "data/docs/.metadata" (Data EmptyString))
            (copied sn_bup (pdf_names db uuid)))))).

Definition note_archive (sn_bup : backup) (db : Papyrus.db)
    (r : string * string * string * Z) : archive * result unit :=
  let '(uuid, nn, mtime, ts) := r in
  and_then (wrote "info.json" (Data (info_json uuid nn ts)))
    (if bool_decide (NoDup (map page_id (page_sql_vals db uuid)))
     then and_then (wrote "note.db" (Sqlite (note_db_of db uuid nn ts)))
            (asset_members sn_bup db uuid)
     else ([], Raise IntegrityError)).

(** [m], run on a state whose file [f] holds [z], leaves [z'] in it and
    ends in [r]. *)
Definition writes {A} (f : string) (m : M A) (z z' : archive) (r : result A) : Prop :=
  forall w, disk w !! f = Some z -> disk (m w).1 !! f = Some z' /\ (m w).2 = r.

(** [ZipFile.namelist]. *)
Definition namelist (z : archive) : list string := map fst z.





(** ** Assertions on runs *)


(** A stretch of writing that, when it raises [KeyError], ends with the
    empty member of the missing name. *)
Definition ends_at_missing (sn_bup : backup) (a : archive * result unit) : Prop :=
  forall name, a.2 = Raise (KeyError name) ->
    last a.1 = Some (name, Data EmptyString) /\ members sn_bup !! name = None.


(** A Hoare triple on the effects: from a state in [P], [m] ends in a
    result and a state in [Q]. *)
Definition hoare {A} (P : world -> Prop) (m : M A) (Q : result A -> world -> Prop) : Prop :=
  forall w, P w -> Q (m w).2 (m w).1.

(** Assertions that look at the disk only, and hold whatever the result. *)
Definition on_disk (I : gmap string archive -> Prop) {A} : result A -> world -> Prop :=
  fun _ w => I (disk w).



(** ** Sample runs *)

Module Sample.

(** Local time is UTC and names are ASCII. *)
Definition env : environment :=
  {| utcoffset := fun _ => 0; NFKD := fun s => s; dirpath := "/tmp/tmpq1w2e3" |}.

(** One note with an empty name, two pages and a background; page [A]
    has the images [i1] and [i2], page [B] the images [i2] and [i3]. *)
Definition db : Papyrus.db :=
  {| Papyrus.note := [("N1", EmptyString, 1690000000000)];
     Papyrus.page := [("A", "N1", 1, 2, 1); ("B", "N1", 1, 2, 2)];
     Papyrus.image := [("i1", "A", 0); ("i2", "A", 0); ("i2", "B", 0); ("i3", "B", 0)];
     Papyrus.document := [("d1", "N1"); ("d2", "N1")] |}.

Definition assets : list (string * string) :=
  [("data/pages/A.page", "page A"); ("data/pages/B.page", "page B");
   ("data/imgs/i1", "image 1"); ("data/imgs/i2", "image 2");
   ("data/imgs/i3", "image 3");
   ("data/docs/d1", "pdf 1"); ("data/docs/d2", "pdf 2")].

Definition sn_bup : backup :=
  {| papyrus_db := Some db; members := list_to_map assets |}.


(** The same backup without the data of page [B]. *)
Definition sn_bup_no_page : backup :=
  {| papyrus_db := Some db; members := delete "data/pages/B.page" (list_to_map assets) |}.





(** The note as [note_list] holds it. *)
Definition N1 : string * string * string * Z :=
  ("N1", "Untitled_20230722-042640", "2023-07-22 04:26:40", 1690000000000).



Definition sn_file : string := "Untitled_20230722-042640.squidnote".

Definition args_of (list_ extract all dry_run : bool) : arguments :=
  {| args_filename := "backup.zip"; args_regex := None;
     args_list := list_; args_extract := extract; args_all := all;
     args_dry_run := dry_run; args_version := false; args_quiet := false |}.

(** A source of three notes, out of order of modification. *)
Definition notes3 : Papyrus.db :=
  {| Papyrus.note := [("b2", "Beta", 3000); ("a1", "Alpha", 1000); ("c3", EmptyString, 2000)];
     Papyrus.page := []; Papyrus.image := []; Papyrus.document := [] |}.

Definition sn_bup3 : backup := {| papyrus_db := Some notes3; members := ∅ |}.

(** The states that the extraction of [N1] ends in. *)
Definition extracted : world :=
  (extract_note env false sn_bup db 1 0 N1 (fresh ∅)).1.


Definition extracted_no_page : world :=
  (extract_note env false sn_bup_no_page db 1 0 N1 (fresh ∅)).1.

End Sample.

(** ** Further assertions *)

(** The characters that [slugify] lets through: [\w] and the dash. *)
Definition slug_char (c : ascii) : bool := is_word c || Ascii.eqb c "-".

(** The characters of a string. *)
Definition chars (s : string) : list ascii := list_ascii_of_string s.


(** [-f backup.zip -x -n -q]. *)
Definition quiet_args : arguments :=
  {| args_filename := "backup.zip"; args_regex := None; args_list := false;
     args_extract := true; args_all := false; args_dry_run := true;
     args_version := false; args_quiet := true |}.

(** Two notes whose names differ and whose file names do not. *)
Definition twins : Papyrus.db :=
  {| Papyrus.note := [("T1", "My note", 1000); ("T2", "My/note", 2000)];
     Papyrus.page := []; Papyrus.image := []; Papyrus.document := [] |}.

Definition sn_bup_twins : backup := {| papyrus_db := Some twins; members := ∅ |}.



(** [m1] and [m2] do the same to standard output and to the disk, and
    end alike, from states that agree on both. *)
Definition same_effects {A} (m1 m2 : M A) : Prop :=
  forall w1 w2, stdout w1 = stdout w2 -> disk w1 = disk w2 ->
    stdout (m1 w1).1 = stdout (m2 w2).1
    /\ disk (m1 w1).1 = disk (m2 w2).1
    /\ (m1 w1).2 = (m2 w2).2.

(** [m] prints nothing on standard output. *)
Definition mute {A} (m : M A) : Prop := forall w, stdout (m w).1 = stdout w.

(** * Proofs *)

(** ** Running the effects *)

Section Writes.
Context {A B : Type}.

Lemma writes_bind_ok (f : string) (m : M A) (k : A -> M B) z z1 z2 a r :
  writes f m z z1 (Ok a) -> writes f (k a) z1 z2 r -> writes f (bind m k) z z2 r.
Proof.
  intros Hm Hk w Hw. unfold bind.
  destruct (Hm w Hw) as [Hd Hr].
  destruct (m w) as [w1 r1]; simpl in *; subst r1.
  exact (Hk w1 Hd).
Qed.

Lemma writes_bind_raise (f : string) (m : M A) (k : A -> M B) z z1 e :
  writes f m z z1 (Raise e) -> writes f (bind m k) z z1 (Raise e).
Proof.
  intros Hm w Hw. unfold bind.
  destruct (Hm w Hw) as [Hd Hr].
  destruct (m w) as [w1 r1]; simpl in *; subst r1. done.
Qed.
End Writes.

Lemma writes_mprint f quiet c msg z : writes f (mprint quiet c msg) z z (Ok tt).
Proof. intros w Hw. unfold mprint. by destruct quiet. Qed.

Lemma writes_ret {A} f (a : A) z : writes f (ret a) z z (Ok a).
Proof. by intros w Hw. Qed.

Lemma writes_raise {A} f e z : writes f (@raise A e) z z (Raise e).
Proof. by intros w Hw. Qed.

Lemma zip_append_lookup f m z w :
  disk w !! f = Some z -> disk (zip_append f m w) !! f = Some (z ++ [m]).
Proof. intros Hw. unfold zip_append; simpl. by rewrite Hw, lookup_insert_eq. Qed.

Lemma writes_zip_write f name c z :
  writes f (zip_write f name c) z (z ++ [(name, c)]) (Ok tt).
Proof. intros w Hw. split; [by apply zip_append_lookup | done]. Qed.

Lemma writes_and_then f (m1 m2 : M unit) z a b :
  writes f m1 z (z ++ a.1) a.2 ->
  (a.2 = Ok tt -> writes f m2 (z ++ a.1) ((z ++ a.1) ++ b.1) b.2) ->
  writes f (m1 ;;; m2) z (z ++ (and_then a b).1) (and_then a b).2.
Proof.
  intros H1 H2. unfold and_then.
  destruct a as [za [[]|e]]; simpl in *.
  - rewrite app_assoc. eapply writes_bind_ok; [exact H1 | by apply H2].
  - by apply writes_bind_raise.
Qed.

Lemma writes_copied sn_bup f {X} (g : X -> string) (xs : list X) z :
  writes f (for_each xs (fun x => zip_copy sn_bup f (g x))) z
    (z ++ (copied sn_bup (map g xs)).1) (copied sn_bup (map g xs)).2.
Proof.
  revert z. induction xs as [|x xs IH]; intros z; simpl.
  - rewrite app_nil_r. apply writes_ret.
  - destruct (members sn_bup !! g x) as [bytes|] eqn:Hx.
    + specialize (IH (z ++ [(g x, Data bytes)])).
      destruct (copied sn_bup (map g xs)) as [z' r'] eqn:Hc; simpl in *.
      eapply writes_bind_ok.
      * intros w Hw. unfold zip_copy. rewrite Hx. split; [by apply zip_append_lookup | done].
      * by rewrite <- app_assoc in IH.
    + apply writes_bind_raise. intros w Hw. unfold zip_copy. rewrite Hx.
      split; [by apply zip_append_lookup | done].
Qed.

Lemma writes_after_mprint {A} f quiet c msg (m : M A) z z' r :
  writes f m z z' r -> writes f (mprint quiet c msg ;;; m) z z' r.
Proof. intros H. eapply writes_bind_ok; [apply writes_mprint | exact H]. Qed.

Lemma writes_before_mprint f quiet c msg (m : M unit) z z' r :
  writes f m z z' r -> writes f (m ;;; mprint quiet c msg) z z' r.
Proof.
  intros H. destruct r as [[]|e].
  - eapply writes_bind_ok; [exact H | apply writes_mprint].
  - by apply writes_bind_raise.
Qed.

Lemma writes_wrote f name c (m : M unit) z b :
  writes f m (z ++ [(name, c)]) ((z ++ [(name, c)]) ++ b.1) b.2 ->
  writes f (zip_write f name c ;;; m) z
    (z ++ (and_then (wrote name c) b).1) (and_then (wrote name c) b).2.
Proof.
  intros H. apply writes_and_then; [apply writes_zip_write | by intros _].
Qed.

Lemma asset_members_writes quiet sn_bup db uuid f (m : M unit) z :
  (forall z', writes f m z' z' (Ok tt)) ->
  writes f
    (zip_write f "data/pages/.metadata" (Data EmptyString) ;;;
     for_each (page_set db uuid)
       (fun page => zip_copy sn_bup f ("data/pages/" +:+ page +:+ ".page")) ;;;
     mprint quiet CWHITE (written (length (page_set db uuid)) "data/pages") ;;;
     zip_write f "data/imgs/.metadata" (Data EmptyString) ;;;
     for_each (image_set db uuid)
       (fun image => zip_copy sn_bup f ("data/imgs/" +:+ image)) ;;;
     mprint quiet CWHITE (written (length (image_set db uuid)) "data/imgs") ;;;
     zip_write f "data/docs/.metadata" (Data EmptyString) ;;;
     for_each (pdf_set db uuid)
       (fun pdf => zip_copy sn_bup f ("data/docs/" +:+ pdf)) ;;;
     mprint quiet CWHITE (written (length (pdf_set db uuid)) "data/docs") ;;;
     m)
    z (z ++ (asset_members sn_bup db uuid).1) (asset_members sn_bup db uuid).2.
Proof.
  intros Hm. unfold asset_members.
  apply writes_wrote.
  apply writes_and_then; [apply (writes_copied sn_bup f) | intros _].
  apply writes_after_mprint, writes_wrote.
  apply writes_and_then; [apply (writes_copied sn_bup f) | intros _].
  apply writes_after_mprint, writes_wrote.
  pose proof (writes_copied sn_bup f (fun pdf => "data/docs/" +:+ pdf) (pdf_set db uuid)) as Hc.
  unfold pdf_names.
  match goal with |- writes _ _ ?z0 _ _ => specialize (Hc z0) end.
  destruct (copied sn_bup (map _ (pdf_set db uuid))) as [zc [[]|e]]; simpl in *.
  - eapply writes_bind_ok; [exact Hc |].
    apply writes_after_mprint. intros w Hw.
    destruct (Hm _ w Hw) as [-> ->]. done.
  - by apply writes_bind_raise.
Qed.

Lemma extract_note_writes env quiet sn_bup db n_notes i r w :
  disk (extract_note env quiet sn_bup db n_notes i r w).1 !! sn_file_of env r.1.1.2
    = Some (note_archive sn_bup db r).1
  /\ (extract_note env quiet sn_bup db n_notes i r w).2 = (note_archive sn_bup db r).2.
Proof.
  destruct r as [[[uuid nn] mtime] ts]; simpl.
  set (f := sn_file_of env nn).
  unfold extract_note. fold f.
  match goal with
  | |- context [bind (zip_open_w f) ?k] => set (rest := k tt)
  end.
  assert (Hrest : writes f rest []
            ([] ++ (note_archive sn_bup db (uuid, nn, mtime, ts)).1)
            (note_archive sn_bup db (uuid, nn, mtime, ts)).2).
  { subst rest. simpl note_archive.
    apply writes_after_mprint, writes_wrote, writes_after_mprint.
    unfold new_db.
    destruct (bool_decide (NoDup (map page_id (page_sql_vals db uuid)))).
    - eapply writes_bind_ok; [apply writes_ret |].
      apply writes_wrote.
      apply asset_members_writes. intros z'. apply writes_mprint.
    - simpl. apply writes_bind_raise, writes_raise. }
  unfold bind at 1. simpl.
  apply Hrest. simpl. apply lookup_insert_eq.
Qed.

(** ** The copying loops *)



Lemma copied_missing sn_bup names name :
  name ∈ names -> members sn_bup !! name = None ->
  exists name', (copied sn_bup names).2 = Raise (KeyError name')
                /\ members sn_bup !! name' = None.
Proof.
  induction names as [|n names IH]; [by intros ?%elem_of_nil|].
  intros Hin Hnone. simpl.
  destruct (members sn_bup !! n) as [bytes|] eqn:Hn.
  - apply elem_of_cons in Hin as [->|Hin]; [congruence|].
    destruct (IH Hin Hnone) as (name' & Hr & Hnone').
    destruct (copied sn_bup names) as [z r]; simpl in *. by exists name'.
  - by exists n.
Qed.


Lemma and_then_prefix a b : a.1 `prefix_of` (and_then a b).1.
Proof.
  unfold and_then. destruct a as [za [[]|e]]; simpl; [by apply prefix_app_r|done].
Qed.


(** ** Sets of identifiers *)







(** ** Deduplication of assets *)






(** ** The document of the pages *)











(** ** Assets that the backup lacks *)



Lemma note_archive_result sn_bup db uuid nn mtime ts :
  (note_archive sn_bup db (uuid, nn, mtime, ts)).2 =
  if bool_decide (NoDup (map page_id (page_sql_vals db uuid)))
  then (asset_members sn_bup db uuid).2
  else Raise IntegrityError.
Proof.
  unfold note_archive, and_then, wrote; cbn [fst snd].
  by destruct (bool_decide _).
Qed.




(** ** What a failed extraction leaves on disk *)

Lemma ends_copied sn_bup names : ends_at_missing sn_bup (copied sn_bup names).
Proof.
  induction names as [|n names IH]; intros name; simpl; [done|].
  destruct (members sn_bup !! n) as [bytes|] eqn:Hn.
  - destruct (copied sn_bup names) as [z r]; simpl in *.
    intros Hr. destruct (IH name Hr) as [Hlast Hnone]. split; [|done].
    destruct z; [done|]. by rewrite last_cons_cons.
  - simpl. by intros [= <-].
Qed.

Lemma ends_wrote sn_bup name c : ends_at_missing sn_bup (wrote name c).
Proof. by intros name'. Qed.

Lemma ends_and_then sn_bup a b :
  ends_at_missing sn_bup a -> ends_at_missing sn_bup b ->
  ends_at_missing sn_bup (and_then a b).
Proof.
  unfold and_then. intros Ha Hb name.
  destruct a as [za [[]|e]]; cbn [fst snd] in *.
  - intros Hr. destruct (Hb name Hr) as [Hlast Hnone]. split; [|done].
    by rewrite last_app, Hlast.
  - apply Ha.
Qed.

Lemma ends_asset_members sn_bup db uuid :
  ends_at_missing sn_bup (asset_members sn_bup db uuid).
Proof.
  unfold asset_members.
  repeat first [apply ends_and_then | apply ends_wrote | apply ends_copied].
Qed.

Lemma note_archive_members sn_bup db uuid nn mtime ts :
  NoDup (map page_id (page_sql_vals db uuid)) ->
  (note_archive sn_bup db (uuid, nn, mtime, ts)).1
  = [("info.json", Data (info_json uuid nn ts));
     ("note.db", Sqlite (note_db_of db uuid nn ts))]
    ++ (asset_members sn_bup db uuid).1.
Proof.
  intros Hnd. unfold note_archive, and_then, wrote; cbn [fst snd].
  by rewrite (bool_decide_eq_true_2 _ Hnd).
Qed.

(** C5, as the program has it.  When the extraction of a note ends with
    the [KeyError] of a member that the backup lacks, the file of the
    note stays on disk: it begins with [info.json] and [note.db] and
    ends with an empty member of the missing name. *)
Theorem partial_archive_remains env quiet sn_bup db n_notes i uuid nn mtime ts
    w w' name :
  extract_note env quiet sn_bup db n_notes i (uuid, nn, mtime, ts) w
    = (w', Raise (KeyError name)) ->
  exists z,
    disk w' !! sn_file_of env nn = Some z
    /\ [("info.json", Data (info_json uuid nn ts));
        ("note.db", Sqlite (note_db_of db uuid nn ts))] `prefix_of` z
    /\ last z = Some (name, Data EmptyString)
    /\ members sn_bup !! name = None.
Proof.
  intros Hrun.
  destruct (extract_note_writes env quiet sn_bup db n_notes i (uuid, nn, mtime, ts) w)
    as [Hdisk Hres].
  rewrite Hrun in Hdisk, Hres. cbn [fst snd] in Hdisk, Hres.
  eexists. split; [exact Hdisk|].
  rewrite note_archive_result in Hres.
  destruct (bool_decide_reflect (NoDup (map page_id (page_sql_vals db uuid))))
    as [Hnd|]; [|done].
  rewrite (note_archive_members _ _ _ _ _ _ Hnd).
  destruct (ends_asset_members sn_bup db uuid name) as [Hlast Hnone]; [done|].
  split; [|split; [|done]].
  - by apply prefix_app_r.
  - by rewrite last_app, Hlast.
Qed.

(** ** Selecting notes *)














(** ** What [--list] prints *)









(** ** The name of a note without a name *)







(** ** The flags [--all] and [--dry-run] *)

Lemma hoare_bind {A B} (P : world -> Prop) (m : M A) (k : A -> M B) Q R :
  hoare P m Q ->
  (forall a, hoare (Q (Ok a)) (k a) R) ->
  (forall e w, Q (Raise e) w -> R (Raise e) w) ->
  hoare P (bind m k) R.
Proof.
  intros Hm Hk He w Hw. unfold bind. specialize (Hm w Hw).
  destruct (m w) as [w1 [a|e]]; simpl in *; [by apply Hk | by apply He].
Qed.


Lemma hoare_inv_bind {A B} I (m : M A) (k : A -> M B) :
  hoare (fun w => I (disk w)) m (on_disk I) ->
  (forall a, hoare (fun w => I (disk w)) (k a) (on_disk I)) ->
  hoare (fun w => I (disk w)) (bind m k) (on_disk I).
Proof. intros Hm Hk. by apply (hoare_bind _ _ _ (on_disk I)). Qed.

Lemma hoare_inv_mprint I quiet c msg :
  hoare (fun w => I (disk w)) (mprint quiet c msg) (on_disk I).
Proof. intros w Hw. unfold mprint, on_disk. by destruct quiet. Qed.

Lemma hoare_inv_ret {A} I (a : A) : hoare (fun w => I (disk w)) (ret a) (on_disk I).
Proof. by intros w Hw. Qed.

Lemma hoare_inv_raise {A} I e : hoare (fun w => I (disk w)) (@raise A e) (on_disk I).
Proof. by intros w Hw. Qed.

Lemma hoare_inv_for_each {X} I (xs : list X) (body : X -> M unit) :
  (forall x, hoare (fun w => I (disk w)) (body x) (on_disk I)) ->
  hoare (fun w => I (disk w)) (for_each xs body) (on_disk I).
Proof.
  intros Hbody. induction xs as [|x xs IH]; simpl; [apply hoare_inv_ret|].
  by apply hoare_inv_bind.
Qed.








(** ** The theorems at sample inputs *)



(** The scenario of two pages sharing an image: pages [A] and [B] refer
    to [{i1, i2}] and [{i2, i3}]; the archive holds the three images
    once each, and [note.db] the four rows. *)
Example two_pages_sharing_an_image :
  exists z note_db,
    disk Sample.extracted !! Sample.sn_file = Some z
    /\ ("note.db", Sqlite note_db) ∈ z
    /\ filter (fun name => String.prefix "data/imgs/" name = true) (namelist z)
       ≡ₚ ["data/imgs/.metadata"; "data/imgs/i1"; "data/imgs/i2"; "data/imgs/i3"]
    /\ NoteDb.image note_db
       = [("i1", "A", 0); ("i2", "A", 0); ("i2", "B", 0); ("i3", "B", 0)].
Proof.
  eexists _, _. split; [vm_compute; reflexivity|].
  split; [right; left|].
  split; [|reflexivity].
  vm_compute.
  apply perm_skip. apply (Permutation_cons_append ["data/imgs/i1"; "data/imgs/i2"]).
Qed.





(** C5, the claim at a sample input: the backup lacks the data of page
    [B].  The run of [--extract] ends with [KeyError], and the file of
    the note is on disk afterwards, cut short. *)
Lemma partial_archive_is_left_on_disk :
  (main Sample.env (Sample.args_of false true false false) Sample.sn_bup_no_page
     (fresh ∅)).2 = Raise (KeyError "data/pages/B.page")
  /\ exists z,
      disk (main Sample.env (Sample.args_of false true false false) Sample.sn_bup_no_page
              (fresh ∅)).1 !! Sample.sn_file = Some z
      /\ namelist z = ["info.json"; "note.db"; "data/pages/.metadata";
                       "data/pages/A.page"; "data/pages/B.page"].
Proof.
  split; [vm_compute; reflexivity|].
  eexists. split; vm_compute; reflexivity.
Qed.

Lemma partial_archive_remains_witness :
  extract_note Sample.env false Sample.sn_bup_no_page Sample.db 1 0 Sample.N1 (fresh ∅)
    = (Sample.extracted_no_page, Raise (KeyError "data/pages/B.page"))
  /\ exists z,
      disk Sample.extracted_no_page !! sn_file_of Sample.env "Untitled_20230722-042640"
        = Some z
      /\ [("info.json", Data (info_json "N1" "Untitled_20230722-042640" 1690000000000));
          ("note.db", Sqlite (note_db_of Sample.db "N1" "Untitled_20230722-042640"
                                1690000000000))] `prefix_of` z
      /\ last z = Some ("data/pages/B.page", Data EmptyString)
      /\ members Sample.sn_bup_no_page !! "data/pages/B.page" = None.
Proof.
  assert (Hrun : extract_note Sample.env false Sample.sn_bup_no_page Sample.db 1 0
                   Sample.N1 (fresh ∅)
                 = (Sample.extracted_no_page, Raise (KeyError "data/pages/B.page")))
    by (vm_compute; reflexivity).
  split; [exact Hrun|].
  exact (partial_archive_remains Sample.env false Sample.sn_bup_no_page Sample.db 1 0
           "N1" "Untitled_20230722-042640" "2023-07-22 04:26:40" 1690000000000
           (fresh ∅) Sample.extracted_no_page "data/pages/B.page" Hrun).
Defined.

(** C4, at a run with [--extract] and [--dry-run]: the message of the
    dry run is sent, and the archive of the note is written all the
    same. *)
Example dry_run_writes_the_archive :
  (main Sample.env (Sample.args_of false true false true) Sample.sn_bup (fresh ∅)).2
    = Ok tt
  /\ (CYELLOW, "This is a dry run, no files will be written")
       ∈ stderr (main Sample.env (Sample.args_of false true false true) Sample.sn_bup
                   (fresh ∅)).1
  /\ disk (fresh ∅) !! Sample.sn_file = None
  /\ exists z,
      disk (main Sample.env (Sample.args_of false true false true) Sample.sn_bup
              (fresh ∅)).1 !! Sample.sn_file = Some z
      /\ namelist z
         = ["info.json"; "note.db"; "data/pages/.metadata";
            "data/pages/A.page"; "data/pages/B.page";
            "data/imgs/.metadata"; "data/imgs/i3"; "data/imgs/i1"; "data/imgs/i2";
            "data/docs/.metadata"; "data/docs/d1"; "data/docs/d2"]
      /\ disk (main Sample.env (Sample.args_of false true false true) Sample.sn_bup
                 (fresh ∅)).1
         = disk (main Sample.env (Sample.args_of false true false false) Sample.sn_bup
                   (fresh ∅)).1.
Proof.
  split; [vm_compute; reflexivity|].
  split; [vm_compute; left|].
  split; [reflexivity|].
  eexists. split; [vm_compute; reflexivity|].
  split; vm_compute; reflexivity.
Qed.

(** Three notes, listed without a pattern: all three, oldest first. *)
Example three_notes_in_order :
  note_list Sample.env (regex_of None) (query_results Sample.notes3)
  = [("a1", "Alpha", "1970-01-01 00:00:01", 1000);
     ("c3", "Untitled_19700101-000002", "1970-01-01 00:00:02", 2000);
     ("b2", "Beta", "1970-01-01 00:00:03", 3000)].
Proof. reflexivity. Qed.




(** * Further properties of the program *)

(** ** [slugify] *)

Lemma rev_reverse {X} (l : list X) : rev l = reverse l.
Proof. unfold reverse. apply rev_alt. Qed.

Lemma lstrip_split cs :
  exists pre, cs = pre ++ lstrip cs /\ Forall (fun c => is_edge c = true) pre.
Proof.
  induction cs as [|c cs (pre & IH & Hpre)]; simpl.
  - by exists [].
  - destruct (is_edge c) eqn:Hc.
    + exists (c :: pre). split; [by rewrite IH at 1 | by constructor].
    + by exists [].
Qed.

Lemma lstrip_Forall (P : ascii -> Prop) cs : Forall P cs -> Forall P (lstrip cs).
Proof.
  intros H. destruct (lstrip_split cs) as (pre & E & _).
  rewrite E in H. by apply Forall_app in H as [_ H].
Qed.

Lemma rstrip_Forall (P : ascii -> Prop) cs : Forall P cs -> Forall P (rstrip cs).
Proof.
  intros H. unfold rstrip. rewrite rev_reverse.
  apply Forall_reverse, lstrip_Forall. by rewrite rev_reverse, Forall_reverse.
Qed.

Lemma lstrip_head cs c : head (lstrip cs) = Some c -> is_edge c = false.
Proof.
  induction cs as [|c' cs IH]; simpl; [done|].
  destruct (is_edge c') eqn:Hc; [done|]. simpl. by intros [= <-].
Qed.

Lemma lstrip_id cs :
  (forall c, head cs = Some c -> is_edge c = false) -> lstrip cs = cs.
Proof. destruct cs as [|c cs]; [done|]. intros H. simpl. by rewrite (H c). Qed.

Lemma rstrip_split cs :
  exists suf, cs = rstrip cs ++ suf /\ Forall (fun c => is_edge c = true) suf.
Proof.
  destruct (lstrip_split (rev cs)) as (pre & E & Hpre).
  exists (rev pre). split.
  - unfold rstrip. rewrite <- rev_app_distr, <- E. by rewrite rev_involutive.
  - rewrite rev_reverse. by apply Forall_reverse.
Qed.

Lemma rstrip_last cs c : last (rstrip cs) = Some c -> is_edge c = false.
Proof.
  unfold rstrip. rewrite rev_reverse, last_reverse. apply lstrip_head.
Qed.

Lemma rstrip_head cs c :
  head (rstrip cs) = Some c -> head cs = Some c.
Proof.
  destruct (rstrip_split cs) as (suf & E & _). rewrite E at 2.
  by destruct (rstrip cs).
Qed.

Lemma rstrip_id cs :
  (forall c, last cs = Some c -> is_edge c = false) -> rstrip cs = cs.
Proof.
  intros H. unfold rstrip. rewrite lstrip_id; [apply rev_involutive|].
  intros c. rewrite rev_reverse, head_reverse. apply H.
Qed.

Lemma chars_slugify env value :
  chars (slugify env value)
  = rstrip (lstrip (map (fun c => if is_word c || Ascii.eqb c "-" then c else "_"%char)
              (List.filter is_ascii (chars (NFKD env value))))).
Proof. unfold chars, slugify. apply list_ascii_of_string_of_list_ascii. Qed.

Lemma chars_app s1 s2 : chars (s1 +:+ s2) = chars s1 ++ chars s2.
Proof.
  unfold chars. induction s1 as [|a s1 IH]; [done|].
  change (String a s1 +:+ s2) with (String a (s1 +:+ s2)). simpl. by rewrite IH.
Qed.

Lemma chars_inj s1 s2 : chars s1 = chars s2 -> s1 = s2.
Proof.
  unfold chars. intros H.
  by rewrite <- (string_of_list_ascii_of_string s1), H, string_of_list_ascii_of_string.
Qed.

Lemma slugify_chars env value : Forall (fun c => slug_char c = true) (chars (slugify env value)).
Proof.
  rewrite chars_slugify. apply rstrip_Forall, lstrip_Forall, Forall_map.
  apply Forall_forall. intros c _. simpl. unfold slug_char.
  by destruct (is_word c || Ascii.eqb c "-") eqn:E.
Qed.

Lemma slug_char_ascii c : slug_char c = true -> is_ascii c = true.
Proof. by destruct c as [[] [] [] [] [] [] [] []]. Qed.

Lemma slug_char_not_slash c : slug_char c = true -> c <> "/"%char.
Proof. by intros H ->. Qed.

(** X1. Whatever the name, [slugify] returns only ASCII letters, digits,
    underscores and dashes; so the name of the file that a note is
    written to holds no path separator. *)
Theorem slugify_safe env value :
  Forall (fun c => slug_char c = true) (chars (slugify env value))
  /\ Forall (fun c => c <> "/"%char) (chars (sn_file_of env value)).
Proof.
  split; [apply slugify_chars|].
  unfold sn_file_of. rewrite chars_app. apply Forall_app. split.
  - eapply Forall_impl; [apply slugify_chars|]. apply slug_char_not_slash.
  - unfold chars. simpl. repeat constructor; discriminate.
Qed.

Lemma slugify_ends env value c :
  head (chars (slugify env value)) = Some c \/ last (chars (slugify env value)) = Some c ->
  is_edge c = false.
Proof.
  rewrite chars_slugify. intros [H|H].
  - apply rstrip_head in H. by apply lstrip_head in H.
  - by apply rstrip_last in H.
Qed.

(** X2. The result of [slugify] neither begins nor ends with a dash or
    an underscore. *)
Theorem slugify_edges env value c :
  head (chars (slugify env value)) = Some c \/ last (chars (slugify env value)) = Some c ->
  is_edge c = false.
Proof.
  rewrite chars_slugify. intros [Hhead|Hlast].
  - apply rstrip_head in Hhead. by apply lstrip_head in Hhead.
  - by apply rstrip_last in Hlast.
Qed.

(** X3. Where the decomposition leaves ASCII text alone, [slugify] is
    idempotent: a slug is its own slug. *)
Theorem slugify_idempotent env value :
  (forall s, Forall (fun c => is_ascii c = true) (chars s) -> NFKD env s = s) ->
  slugify env (slugify env value) = slugify env value.
Proof.
  intros Hnfkd. apply chars_inj.
  pose proof (slugify_chars env value) as Hall.
  pose proof (slugify_ends env value) as Hedge.
  rewrite (chars_slugify env (slugify env value)).
  set (cs := chars (slugify env value)) in *.
  assert (Hascii : Forall (fun c => is_ascii c = true) cs).
  { eapply Forall_impl; [exact Hall|]. apply slug_char_ascii. }
  rewrite (Hnfkd _ Hascii). fold cs.
  assert (E1 : List.filter is_ascii cs = cs).
  { clear -Hascii. induction Hascii as [|c cs Hc _ IH]; simpl; [done|].
    by rewrite Hc, IH. }
  rewrite E1.
  assert (E2 : map (fun c => if is_word c || Ascii.eqb c "-" then c else "_"%char) cs = cs).
  { clear -Hall. induction Hall as [|c cs Hc _ IH]; simpl; [done|].
    unfold slug_char in Hc. by rewrite Hc, IH. }
  rewrite E2, lstrip_id by (intros c Hc; apply Hedge; auto).
  apply rstrip_id. intros c Hc. apply Hedge. auto.
Qed.

Lemma slugify_idempotent_witness :
  (forall s, Forall (fun c => is_ascii c = true) (chars s) -> NFKD Sample.env s = s)
  /\ slugify Sample.env (slugify Sample.env "__My note/2023-- ")
     = slugify Sample.env "__My note/2023-- ".
Proof.
  assert (H : forall s, Forall (fun c => is_ascii c = true) (chars s) ->
                        NFKD Sample.env s = s) by reflexivity.
  split; [exact H|].
  exact (slugify_idempotent Sample.env "__My note/2023-- " H).
Defined.

Lemma slugify_edges_witness :
  (head (chars (slugify Sample.env "__My note/2023-- ")) = Some "M"%char
   \/ last (chars (slugify Sample.env "__My note/2023-- ")) = Some "M"%char)
  /\ is_edge "M" = false.
Proof.
  assert (H : head (chars (slugify Sample.env "__My note/2023-- ")) = Some "M"%char
              \/ last (chars (slugify Sample.env "__My note/2023-- ")) = Some "M"%char)
    by (left; reflexivity).
  split; [exact H|].
  exact (slugify_edges Sample.env "__My note/2023-- " "M" H).
Defined.

Example slugify_sample : slugify Sample.env "__My note/2023-- " = "My_note_2023".
Proof. reflexivity. Qed.

(** ** Matching from the start *)







(** ** Runs that write nothing *)















(** ** Runs that leave the disk alone *)


(** X6. When the backup holds no [papyrus.db], the run ends with
    [KeyError] before anything is listed or written. *)
Theorem no_database_no_output env args sn_bup w :
  args_version args = false ->
  papyrus_db sn_bup = None ->
  (main env args sn_bup w).2 = Raise (KeyError "papyrus.db")
  /\ stdout (main env args sn_bup w).1 = stdout w
  /\ disk (main env args sn_bup w).1 = disk w.
Proof.
  intros Hv Hdb. unfold main. rewrite Hv, Hdb.
  unfold bind, mprint, ret, raise.
  by destruct (args_dry_run args), (args_quiet args).
Qed.

Lemma no_database_no_output_witness :
  args_version quiet_args = false
  /\ papyrus_db {| papyrus_db := None; members := ∅ |} = None
  /\ (main Sample.env quiet_args {| papyrus_db := None; members := ∅ |} (fresh ∅)).2
     = Raise (KeyError "papyrus.db")
  /\ stdout (main Sample.env quiet_args {| papyrus_db := None; members := ∅ |}
               (fresh ∅)).1 = stdout (fresh ∅)
  /\ disk (main Sample.env quiet_args {| papyrus_db := None; members := ∅ |}
             (fresh ∅)).1 = disk (fresh ∅).
Proof.
  split; [reflexivity|]. split; [reflexivity|].
  exact (no_database_no_output Sample.env quiet_args
           {| papyrus_db := None; members := ∅ |} (fresh ∅) eq_refl eq_refl).
Defined.






(** ** One file per note *)

Lemma lookup_other_zip_write g v f name c :
  g <> f ->
  hoare (fun w => disk w !! g = v) (zip_write f name c) (on_disk (fun d => d !! g = v)).
Proof. intros Hne w Hw. unfold on_disk. simpl. by rewrite lookup_insert_ne. Qed.

Lemma lookup_other_zip_copy g v sn_bup f name :
  g <> f ->
  hoare (fun w => disk w !! g = v) (zip_copy sn_bup f name) (on_disk (fun d => d !! g = v)).
Proof.
  intros Hne w Hw. unfold zip_copy, on_disk.
  destruct (members sn_bup !! name); simpl; by rewrite lookup_insert_ne.
Qed.

Lemma lookup_other_zip_open_w g v f :
  g <> f ->
  hoare (fun w => disk w !! g = v) (zip_open_w f) (on_disk (fun d => d !! g = v)).
Proof. intros Hne w Hw. unfold on_disk. simpl. by rewrite lookup_insert_ne. Qed.

Lemma extract_note_other_file g v env quiet sn_bup db n_notes i r :
  g <> sn_file_of env r.1.1.2 ->
  hoare (fun w => disk w !! g = v) (extract_note env quiet sn_bup db n_notes i r)
    (on_disk (fun d => d !! g = v)).
Proof.
  destruct r as [[[uuid nn] mtime] ts]. simpl. intros Hne.
  unfold extract_note, new_db.
  repeat first
    [ apply (hoare_inv_bind (fun d => d !! g = v)); [|intros ?]
    | apply (hoare_inv_mprint (fun d => d !! g = v))
    | apply lookup_other_zip_write; exact Hne
    | apply lookup_other_zip_open_w; exact Hne
    | apply (hoare_inv_for_each (fun d => d !! g = v)); intros ?
    | apply lookup_other_zip_copy; exact Hne
    | match goal with |- context [bool_decide ?P] => destruct (bool_decide P) end
    | apply (hoare_inv_ret (fun d => d !! g = v))
    | apply (hoare_inv_raise (fun d => d !! g = v)) ].
Qed.

(** X8. The extraction of a note touches one file only, the one named
    after the note: every other file is as before, there or not,
    however the extraction ends. *)
Theorem extract_note_one_file env quiet sn_bup db n_notes i uuid nn mtime ts w g :
  g <> sn_file_of env nn ->
  disk (extract_note env quiet sn_bup db n_notes i (uuid, nn, mtime, ts) w).1 !! g
  = disk w !! g.
Proof.
  intros Hne.
  exact (extract_note_other_file g (disk w !! g) env quiet sn_bup db n_notes i
           (uuid, nn, mtime, ts) Hne w eq_refl).
Qed.

Lemma extract_note_one_file_witness :
  "other.squidnote" <> sn_file_of Sample.env "Untitled_20230722-042640"
  /\ disk (extract_note Sample.env false Sample.sn_bup Sample.db 1 0 Sample.N1
             (fresh (<["other.squidnote" := []]> ∅))).1 !! "other.squidnote"
     = disk (fresh (<["other.squidnote" := []]> ∅)) !! "other.squidnote".
Proof.
  assert (H : "other.squidnote" <> sn_file_of Sample.env "Untitled_20230722-042640")
    by (vm_compute; discriminate).
  split; [exact H|].
  exact (extract_note_one_file Sample.env false Sample.sn_bup Sample.db 1 0
           "N1" "Untitled_20230722-042640" "2023-07-22 04:26:40" 1690000000000
           (fresh (<["other.squidnote" := []]> ∅)) "other.squidnote" H).
Defined.

(** X9. Two notes whose names give the same file name: extracting the
    second after the first leaves in that file what extracting the
    second alone leaves; nothing of the first remains. *)
Theorem same_slug_overwrites env quiet sn_bup db n_notes i j
    uuid1 nn1 mtime1 ts1 uuid2 nn2 mtime2 ts2 w :
  sn_file_of env nn1 = sn_file_of env nn2 ->
  (extract_note env quiet sn_bup db n_notes i (uuid1, nn1, mtime1, ts1) w).2 = Ok tt ->
  disk ((extract_note env quiet sn_bup db n_notes i (uuid1, nn1, mtime1, ts1) ;;;
         extract_note env quiet sn_bup db n_notes j (uuid2, nn2, mtime2, ts2)) w).1
    !! sn_file_of env nn1
  = disk (extract_note env quiet sn_bup db n_notes j (uuid2, nn2, mtime2, ts2) w).1
      !! sn_file_of env nn2.
Proof.
  intros Hsame Hok. unfold bind.
  destruct (extract_note env quiet sn_bup db n_notes i (uuid1, nn1, mtime1, ts1) w)
    as [w1 r1]; simpl in Hok; subst r1.
  rewrite Hsame.
  destruct (extract_note_writes env quiet sn_bup db n_notes j
              (uuid2, nn2, mtime2, ts2) w1) as [H1 _].
  destruct (extract_note_writes env quiet sn_bup db n_notes j
              (uuid2, nn2, mtime2, ts2) w) as [H2 _].
  cbn [fst snd] in H1, H2. by rewrite H1, H2.
Qed.

Lemma same_slug_overwrites_witness :
  sn_file_of Sample.env "My note" = sn_file_of Sample.env "My/note"
  /\ (extract_note Sample.env false sn_bup_twins twins 2 0
        ("T1", "My note", "1970-01-01 00:00:01", 1000) (fresh ∅)).2 = Ok tt
  /\ disk ((extract_note Sample.env false sn_bup_twins twins 2 0
              ("T1", "My note", "1970-01-01 00:00:01", 1000) ;;;
            extract_note Sample.env false sn_bup_twins twins 2 1
              ("T2", "My/note", "1970-01-01 00:00:02", 2000)) (fresh ∅)).1
       !! sn_file_of Sample.env "My note"
     = disk (extract_note Sample.env false sn_bup_twins twins 2 1
               ("T2", "My/note", "1970-01-01 00:00:02", 2000) (fresh ∅)).1
         !! sn_file_of Sample.env "My/note".
Proof.
  assert (Hs : sn_file_of Sample.env "My note" = sn_file_of Sample.env "My/note")
    by reflexivity.
  assert (Hok : (extract_note Sample.env false sn_bup_twins twins 2 0
                   ("T1", "My note", "1970-01-01 00:00:01", 1000) (fresh ∅)).2 = Ok tt)
    by (vm_compute; reflexivity).
  split; [exact Hs|]. split; [exact Hok|].
  exact (same_slug_overwrites Sample.env false sn_bup_twins twins 2 0 1
           "T1" "My note" "1970-01-01 00:00:01" 1000
           "T2" "My/note" "1970-01-01 00:00:02" 2000 (fresh ∅) Hs Hok).
Defined.

(** The run of [--extract] on the two notes: one file, holding the
    second note. *)
Example twins_one_file :
  (main Sample.env (Sample.args_of false true false false) sn_bup_twins (fresh ∅)).2
    = Ok tt
  /\ dom (disk (main Sample.env (Sample.args_of false true false false) sn_bup_twins
                  (fresh ∅)).1) = {["My_note.squidnote"]}
  /\ exists z,
      disk (main Sample.env (Sample.args_of false true false false) sn_bup_twins
              (fresh ∅)).1 !! "My_note.squidnote" = Some z
      /\ z !! 0%nat = Some ("info.json", Data (info_json "T2" "My/note" 2000)).
Proof.
  split; [vm_compute; reflexivity|].
  split; [vm_compute; reflexivity|].
  eexists. split; vm_compute; reflexivity.
Qed.

(** ** The archive of a note, member by member *)







(** ** The rows of [note.db] *)



(** ** Pages and documents, once each *)







(** ** Runs that end early *)







(** ** What the flags change *)

Lemma same_effects_bind {A B} (m1 m2 : M A) (k1 k2 : A -> M B) :
  same_effects m1 m2 -> (forall a, same_effects (k1 a) (k2 a)) ->
  same_effects (bind m1 k1) (bind m2 k2).
Proof.
  intros Hm Hk w1 w2 Ho Hd. unfold bind.
  destruct (Hm w1 w2 Ho Hd) as (Ho' & Hd' & Hr).
  destruct (m1 w1) as [w1' r1], (m2 w2) as [w2' r2]; simpl in *; subst r2.
  destruct r1 as [a|e]; simpl; [by apply Hk | done].
Qed.

Lemma same_effects_mprint q1 c1 msg1 q2 c2 msg2 :
  same_effects (mprint q1 c1 msg1) (mprint q2 c2 msg2).
Proof. intros w1 w2 Ho Hd. unfold mprint. by destruct q1, q2. Qed.

Lemma same_effects_mprint_ret q c msg : same_effects (mprint q c msg) (ret tt).
Proof. intros w1 w2 Ho Hd. unfold mprint. by destruct q. Qed.

Lemma same_effects_ret_mprint q c msg : same_effects (ret tt) (mprint q c msg).
Proof. intros w1 w2 Ho Hd. unfold mprint. by destruct q. Qed.

Lemma same_effects_ret {A} (a : A) : same_effects (ret a) (ret a).
Proof. by intros w1 w2 Ho Hd. Qed.

Lemma same_effects_raise {A} e : same_effects (@raise A e) (raise e).
Proof. by intros w1 w2 Ho Hd. Qed.

Lemma same_effects_print line : same_effects (print line) (print line).
Proof. intros w1 w2 Ho Hd. simpl. by rewrite Ho. Qed.

Lemma same_effects_zip_open_w f : same_effects (zip_open_w f) (zip_open_w f).
Proof. intros w1 w2 Ho Hd. simpl. by rewrite Hd. Qed.

Lemma same_effects_zip_write f name c :
  same_effects (zip_write f name c) (zip_write f name c).
Proof. intros w1 w2 Ho Hd. simpl. by rewrite Hd. Qed.

Lemma same_effects_zip_copy sn_bup f name :
  same_effects (zip_copy sn_bup f name) (zip_copy sn_bup f name).
Proof.
  intros w1 w2 Ho Hd. unfold zip_copy.
  destruct (members sn_bup !! name); simpl; by rewrite Hd.
Qed.

Lemma same_effects_for_each {X} (xs : list X) (body1 body2 : X -> M unit) :
  (forall x, same_effects (body1 x) (body2 x)) ->
  same_effects (for_each xs body1) (for_each xs body2).
Proof.
  intros Hbody. induction xs as [|x xs IH]; simpl; [apply same_effects_ret|].
  by apply same_effects_bind.
Qed.

Ltac same_steps :=
  repeat first
    [ apply same_effects_bind; [|intros ?]
    | apply same_effects_mprint
    | apply same_effects_print
    | apply same_effects_zip_write
    | apply same_effects_zip_open_w
    | apply same_effects_for_each; intros ?
    | apply same_effects_zip_copy
    | apply same_effects_ret
    | apply same_effects_raise ].

Lemma same_effects_extract_note env q1 q2 sn_bup db n_notes i r :
  same_effects (extract_note env q1 sn_bup db n_notes i r)
               (extract_note env q2 sn_bup db n_notes i r).
Proof.
  destruct r as [[[uuid nn] mtime] ts]. unfold extract_note, new_db.
  same_steps.
  match goal with |- context [bool_decide ?P] => destruct (bool_decide P) end;
    same_steps.
Qed.

(** X16. Of the arguments only [--regex], [--list], [--extract] and
    [--version] bear on what a run prints on standard output, on what
    it writes to disk and on how it ends: [--quiet], [--dry-run] and
    [--all] change the messages on standard error and nothing else. *)
Theorem flags_that_matter env args1 args2 sn_bup w :
  args_regex args1 = args_regex args2 ->
  args_list args1 = args_list args2 ->
  args_extract args1 = args_extract args2 ->
  args_version args1 = args_version args2 ->
  stdout (main env args1 sn_bup w).1 = stdout (main env args2 sn_bup w).1
  /\ disk (main env args1 sn_bup w).1 = disk (main env args2 sn_bup w).1
  /\ (main env args1 sn_bup w).2 = (main env args2 sn_bup w).2.
Proof.
  intros Hr Hl Hx Hv.
  assert (H : same_effects (main env args1 sn_bup) (main env args2 sn_bup));
    [|by apply H].
  unfold main. rewrite Hr, Hl, Hx, Hv.
  destruct (args_version args2); [same_steps|].
  apply same_effects_bind; [|intros _].
  { destruct (args_dry_run args1), (args_dry_run args2);
      first [ apply same_effects_mprint | apply same_effects_ret
            | apply same_effects_mprint_ret | apply same_effects_ret_mprint ]. }
  same_steps.
  - destruct (papyrus_db sn_bup); same_steps.
  - destruct (args_list args2); [|destruct (args_extract args2)]; same_steps.
    + match goal with x : (nat * _)%type |- _ => destruct x end. same_steps.
    + match goal with x : (nat * _)%type |- _ => destruct x end.
      apply same_effects_extract_note.
Qed.

Lemma flags_that_matter_witness :
  args_regex quiet_args = args_regex (Sample.args_of false true false false)
  /\ args_list quiet_args = args_list (Sample.args_of false true false false)
  /\ args_extract quiet_args = args_extract (Sample.args_of false true false false)
  /\ args_version quiet_args = args_version (Sample.args_of false true false false)
  /\ stdout (main Sample.env quiet_args Sample.sn_bup (fresh ∅)).1
     = stdout (main Sample.env (Sample.args_of false true false false) Sample.sn_bup
                 (fresh ∅)).1
  /\ disk (main Sample.env quiet_args Sample.sn_bup (fresh ∅)).1
     = disk (main Sample.env (Sample.args_of false true false false) Sample.sn_bup
               (fresh ∅)).1
  /\ (main Sample.env quiet_args Sample.sn_bup (fresh ∅)).2
     = (main Sample.env (Sample.args_of false true false false) Sample.sn_bup
          (fresh ∅)).2.
Proof.
  do 4 (split; [reflexivity|]).
  exact (flags_that_matter Sample.env quiet_args (Sample.args_of false true false false)
           Sample.sn_bup (fresh ∅) eq_refl eq_refl eq_refl eq_refl).
Defined.

(** ** Standard output *)

Lemma mute_bind {A B} (m : M A) (k : A -> M B) :
  mute m -> (forall a, mute (k a)) -> mute (bind m k).
Proof.
  intros Hm Hk w. unfold bind. specialize (Hm w).
  destruct (m w) as [w1 [a|e]]; simpl in *; [|done].
  by rewrite Hk.
Qed.

Lemma mute_mprint quiet c msg : mute (mprint quiet c msg).
Proof. intros w. unfold mprint. by destruct quiet. Qed.

Lemma mute_zip_copy sn_bup f name : mute (zip_copy sn_bup f name).
Proof. intros w. unfold zip_copy. by destruct (members sn_bup !! name). Qed.

Lemma mute_for_each {X} (xs : list X) (body : X -> M unit) :
  (forall x, mute (body x)) -> mute (for_each xs body).
Proof.
  intros Hbody. induction xs as [|x xs IH]; simpl; [done|].
  by apply mute_bind.
Qed.

Ltac mute_steps :=
  repeat first
    [ apply mute_bind; [|intros ?]
    | apply mute_mprint
    | apply mute_for_each; intros ?
    | apply mute_zip_copy
    | (intros ?; reflexivity) ].

Lemma mute_extract_note env quiet sn_bup db n_notes i r :
  mute (extract_note env quiet sn_bup db n_notes i r).
Proof.
  destruct r as [[[uuid nn] mtime] ts]. unfold extract_note, new_db.
  mute_steps.
  match goal with |- context [bool_decide ?P] => destruct (bool_decide P) end;
    mute_steps.
Qed.

(** X17. Without [--list] (and [--version]) a run prints nothing on
    standard output, whatever it extracts and however it ends; without
    [--extract] as well it leaves the disk as it found it. *)
Theorem extract_prints_nothing env args sn_bup w :
  args_version args = false -> args_list args = false ->
  stdout (main env args sn_bup w).1 = stdout w
  /\ (args_extract args = false -> disk (main env args sn_bup w).1 = disk w).
Proof.
  intros Hv Hl. split.
  - revert w. change (mute (main env args sn_bup)).
    unfold main. rewrite Hv, Hl.
    apply mute_bind; [destruct (args_dry_run args); mute_steps | intros _].
    mute_steps.
    + destruct (papyrus_db sn_bup); mute_steps.
    + destruct (args_extract args); mute_steps.
      match goal with x : (nat * _)%type |- _ => destruct x end.
      apply mute_extract_note.
  - intros Hx.
    assert (H : forall I : gmap string archive -> Prop,
                 hoare (fun w0 => I (disk w0)) (main env args sn_bup) (on_disk I));
      [|exact (H (fun d => d = disk w) w eq_refl)].
    intros I. unfold main. rewrite Hv, Hl, Hx.
    apply hoare_inv_bind.
    { destruct (args_dry_run args); [apply hoare_inv_mprint | apply hoare_inv_ret]. }
    intros _.
    do 2 (apply hoare_inv_bind; [apply hoare_inv_mprint | intros _]).
    apply hoare_inv_bind.
    { destruct (papyrus_db sn_bup); [apply hoare_inv_ret | apply hoare_inv_raise]. }
    intros db.
    do 2 (apply hoare_inv_bind; [apply hoare_inv_mprint | intros _]).
    apply hoare_inv_bind; [apply hoare_inv_ret | intros _; apply hoare_inv_mprint].
Qed.

Lemma extract_prints_nothing_witness :
  args_version (Sample.args_of false true false false) = false
  /\ args_list (Sample.args_of false true false false) = false
  /\ stdout (main Sample.env (Sample.args_of false true false false) Sample.sn_bup
               (fresh ∅)).1 = stdout (fresh ∅)
  /\ args_extract (Sample.args_of false false false false) = false
  /\ disk (main Sample.env (Sample.args_of false false false false) Sample.sn_bup
             (fresh ∅)).1 = disk (fresh ∅).
Proof.
  do 2 (split; [reflexivity|]).
  split.
  - exact (proj1 (extract_prints_nothing Sample.env (Sample.args_of false true false false)
                    Sample.sn_bup (fresh ∅) eq_refl eq_refl)).
  - split; [reflexivity|].
    exact (proj2 (extract_prints_nothing Sample.env
                    (Sample.args_of false false false false)
                    Sample.sn_bup (fresh ∅) eq_refl eq_refl) eq_refl).
Defined.
